(** * Console system commands of the ESP32 demo application

    A shallow embedding of
    [examples/esp32/apps/memfault_demo_app/main/cmd_system.c]: the scripted
    [make] handler and the [tasks] handler, written in a small command monad
    that threads the platform state (the RTC store register and the log of
    platform calls) and carries the two ways a handler stops: a [return]
    statement and a call of [esp_restart], which does not come back. *)

From Stdlib Require Import ZArith List String Ascii Bool Lia.
From Stdlib Require Import Permutation.
From Stdlib Require DecimalString DecimalN DecimalPos.
Import ListNotations.

Local Open Scope string_scope.
Local Open Scope Z_scope.

(** ** C integers *)

(** [REG_READ] yields a [uint32_t]; [int count = ...] converts it to a 32-bit
    two's complement [int]. *)
Definition INT_MAX : Z := 2147483647.

Definition int_of_uint32 (u : Z) : Z :=
  let m := u mod 2 ^ 32 in
  if m <? 2 ^ 31 then m else m - 2 ^ 32.

(** [REG_WRITE] stores its [int] argument as a [uint32_t]. *)
Definition uint32_of_int (i : Z) : Z := i mod 2 ^ 32.

(** [size_t] multiplication wraps at 32 bits on this target. *)
Definition size_mul (a b : Z) : Z := (a * b) mod 2 ^ 32.

(** ** Platform calls and the state they act on *)

Inductive event : Type :=
| EvRegWrite (v : Z)            (* REG_WRITE(RTC_CNTL_STORE0_REG, v) *)
| EvPrint (s : string)          (* printf / fputs on stdout *)
| EvTaskDelay (ticks : Z)       (* vTaskDelay(ticks) *)
| EvLogE (tag msg : string)     (* ESP_LOGE(tag, msg) *)
| EvMalloc (bytes : Z)          (* malloc(bytes) *)
| EvFree (ptr : Z)              (* free(ptr) *)
| EvRestart.                    (* esp_restart() *)

Record world : Type := World {
  store0 : Z;                   (* contents of RTC_CNTL_STORE0_REG *)
  trace : list event            (* platform calls so far, oldest first *)
}.

Definition emit (ev : event) (w : world) : world :=
  {| store0 := store0 w; trace := (trace w ++ [ev])%list |}.

(** How a handler stops. *)
Inductive exit : Type :=
| Returned (status : Z)
| Restarted.

(** ** The command monad *)

Inductive step (A : Type) : Type :=
| Next (a : A) (w : world)      (* go on with the next statement *)
| Exit (e : exit) (w : world)   (* the handler has stopped *)
| Undef.                        (* undefined behaviour *)

Arguments Next {A} a w.
Arguments Exit {A} e w.
Arguments Undef {A}.

Definition cmd (A : Type) : Type := world -> step A.

Definition pure {A} (a : A) : cmd A := fun w => Next a w.

Definition bind {A B} (c : cmd A) (k : A -> cmd B) : cmd B :=
  fun w =>
    match c w with
    | Next a w' => k a w'
    | Exit e w' => Exit e w'
    | Undef => Undef
    end.

Declare Scope cmd_scope.
Delimit Scope cmd_scope with cmd.
Notation "x <- c1 ;; c2" := (bind c1 (fun x => c2))
  (at level 61, c1 at next level, right associativity) : cmd_scope.
Notation "c1 ;; c2" := (bind c1 (fun _ => c2))
  (at level 61, right associativity) : cmd_scope.
Local Open Scope cmd_scope.

Definition skip : cmd unit := pure tt.

(** [if (b) { c }] *)
Definition when (b : bool) (c : cmd unit) : cmd unit :=
  if b then c else skip.

(** [for] over the items of an array, in index order. *)
Fixpoint for_each {A} (items : list A) (body : A -> cmd unit) : cmd unit :=
  match items with
  | [] => skip
  | x :: rest => body x ;; for_each rest body
  end.

(** [return status;] *)
Definition return_ {A} (status : Z) : cmd A :=
  fun w => Exit (Returned status) w.

(** [esp_restart()] never returns to its caller. *)
Definition esp_restart {A} : cmd A :=
  fun w => Exit Restarted (emit EvRestart w).

Definition REG_READ : cmd Z :=
  fun w => Next (store0 w) w.

Definition REG_WRITE (count : Z) : cmd unit :=
  fun w =>
    let v := uint32_of_int count in
    Next tt {| store0 := v; trace := (trace w ++ [EvRegWrite v])%list |}.

(** [++count] on an [int]: signed overflow is undefined. *)
Definition pre_incr (count : Z) : cmd Z :=
  fun w => if count =? INT_MAX then Undef else Next (count + 1) w.

Definition printf (s : string) : cmd unit :=
  fun w => Next tt (emit (EvPrint s) w).

Definition fputs (s : string) : cmd unit := printf s.

Definition vTaskDelay (ticks : Z) : cmd unit :=
  fun w => Next tt (emit (EvTaskDelay ticks) w).

Definition ESP_LOGE (tag msg : string) : cmd unit :=
  fun w => Next tt (emit (EvLogE tag msg) w).

Definition free (ptr : Z) : cmd unit :=
  fun w => Next tt (emit (EvFree ptr) w).

(** Running a handler body. Both handlers end in [return], so a body that
    falls off its end has no status to give. *)
Definition call (body : cmd unit) (w : world) : option (exit * world) :=
  match body w with
  | Exit e w' => Some (e, w')
  | Next _ _ => None
  | Undef => None
  end.

(** ** Strings of the handlers *)

Definition LF : string := String (ascii_of_nat 10) EmptyString.

(** [argv[i][0]]: the first character, or the terminating NUL. *)
Definition char0 (s : string) : ascii :=
  match s with
  | EmptyString => ascii_of_nat 0
  | String c _ => c
  end.

(** [isdigit] in the C locale. *)
Definition isdigit (c : ascii) : bool :=
  let n := Z.of_nat (nat_of_ascii c) in
  (48 <=? n) && (n <=? 57).

(** [strcmp(a, b) == 0] on NUL-terminated strings without inner NUL. *)
Definition streq (a b : string) : bool := String.eqb a b.

Definition refusal : string :=
  "This is not the console you are looking for." ++ LF.

Definition make_output : string :=
  "LD build/console.elf" ++ LF ++
  "esptool.py v2.1-beta1" ++ LF.

Definition flash_output : list string :=
  [ "Flashing binaries to serial port (*) (app at offset 0x10000)..." ++ LF ++
    "esptool.py v2.1-beta1" ++ LF ++
    "Connecting...." ++ LF;
    "Chip is ESP32D0WDQ6 (revision 0)" ++ LF ++
    "Uploading stub..." ++ LF ++
    "Running stub..." ++ LF ++
    "Stub running..." ++ LF ++
    "Changing baud rate to 921600" ++ LF ++
    "Changed." ++ LF ++
    "Configuring flash size..." ++ LF ++
    "Auto-detected Flash size: 4MB" ++ LF ++
    "Flash params set to 0x0220" ++ LF ++
    "Compressed 15712 bytes to 9345..." ++ LF;
    "Wrote 15712 bytes (9345 compressed) at 0x00001000 in 0.1 seconds (effective 1126.9 kbit/s)..." ++ LF ++
    "Hash of data verified." ++ LF ++
    "Compressed 333776 bytes to 197830..." ++ LF;
    "Wrote 333776 bytes (197830 compressed) at 0x00010000 in 3.3 seconds (effective 810.3 kbit/s)..." ++ LF ++
    "Hash of data verified." ++ LF ++
    "Compressed 3072 bytes to 82..." ++ LF;
    "Wrote 3072 bytes (82 compressed) at 0x00008000 in 0.0 seconds (effective 1588.4 kbit/s)..." ++ LF ++
    "Hash of data verified." ++ LF ++
    "Leaving..." ++ LF ++
    "Hard resetting..." ++ LF ].

(** [printf("make: *** No rule to make target `%s'.  Stop.\n", tok)] *)
Definition no_rule (tok : string) : string :=
  "make: *** No rule to make target `" ++ tok ++ "'.  Stop." ++ LF.

Definition tasks_header : string :=
  "Task Name" ++ String (ascii_of_nat 9) "Status" ++
  String (ascii_of_nat 9) "Prio" ++ String (ascii_of_nat 9) "HWM" ++
  String (ascii_of_nat 9) "Task Number" ++ LF.

(** The three flags of [make]. *)
Record phases : Type := Phases {
  need_make : bool;
  need_flash : bool;
  need_monitor : bool
}.

Definition no_phase : phases := Phases false false false.

(** The values the macros have in a default ESP-IDF configuration (a 100 Hz
    tick, ANSI colours), used to run the handlers on concrete inputs. *)
Definition ESC : string := String (ascii_of_nat 27) EmptyString.
Definition tick_period_100hz : Z := 10.
Definition color_yellow : string := ESC ++ "[0;33m".
Definition color_reset : string := ESC ++ "[0m".

Section Handlers.

(** Macros of the FreeRTOS and [esp_log.h] headers that [cmd_system.c]
    includes: the length of a tick in milliseconds (positive, or the
    division in [make] would not compile) and the two colour escapes. *)
Variable portTICK_PERIOD_MS : Z.
Variable LOG_COLOR_W : string.
Variable LOG_RESET_COLOR : string.

(** What the platform answers to [tasks_info]: the number of live tasks,
    the allocator ([None] is [NULL]) and the text [vTaskList] leaves in
    the buffer. *)
Variable uxTaskGetNumberOfTasks : Z.
Variable heap_malloc : Z -> option Z.
Variable task_list : string.

Definition malloc (bytes : Z) : cmd (option Z) :=
  fun w => Next (heap_malloc bytes) (emit (EvMalloc bytes) w).

Definition vTaskList (buffer : Z) : cmd string := pure task_list.

Definition monitor_output : string :=
  "MONITOR" ++ LF ++
  LOG_COLOR_W ++
  "--- idf_monitor on (*) 115200 ---" ++ LF ++
  "--- Quit: Ctrl+] | Menu: Ctrl+T | Help: Ctrl+T followed by Ctrl+H --" ++ LF ++
  LOG_RESET_COLOR.

(** The argument loop of [make], from index [i] on. *)
Fixpoint scan_args (args : list string) (need : phases) : cmd phases :=
  match args with
  | [] => pure need
  | a :: rest =>
    if streq a "all" then
      scan_args rest (Phases true (need_flash need) (need_monitor need))
    else if streq a "flash" then
      scan_args rest (Phases true true (need_monitor need))
    else if streq a "monitor" then
      scan_args rest (Phases (need_make need) (need_flash need) true)
    else if Ascii.eqb (char0 a) "-"%char then
      scan_args rest need
    else if isdigit (char0 a) then
      scan_args rest need
    else
      printf (no_rule a) ;;
      return_ 0
  end.

Definition make (argv : list string) : cmd unit :=
  let argc := Z.of_nat (List.length argv) in
  count <- REG_READ ;;
  count <- pre_incr (int_of_uint32 count) ;;
  when (3 <=? count)
    (printf refusal ;;
     return_ 0) ;;
  REG_WRITE count ;;
  need <- scan_args (skipn 1 argv) no_phase ;;
  let need_make := if argc =? 1 then true else need_make need in
  when need_make
    (printf make_output) ;;
  when (need_flash need)
    (for_each flash_output (fun block =>
       printf block ;;
       vTaskDelay (200 / portTICK_PERIOD_MS))) ;;
  when (need_monitor need)
    (printf monitor_output ;;
     esp_restart) ;;
  return_ 0.

Definition tasks_info (argv : list string) : cmd unit :=
  let bytes_per_task := 40 in
  task_list_buffer <- malloc (size_mul uxTaskGetNumberOfTasks bytes_per_task) ;;
  match task_list_buffer with
  | None =>
    ESP_LOGE "tasks_info" "failed to allocate buffer for vTaskList output" ;;
    return_ 1
  | Some buffer =>
    fputs tasks_header ;;
    text <- vTaskList buffer ;;
    fputs text ;;
    free buffer ;;
    return_ 0
  end.

(** ** Vocabulary of the statements *)

(** The count [make] compares with 3: the register read, converted to [int]
    and incremented. *)
Definition next_count : cmd Z :=
  count <- REG_READ ;;
  pre_incr (int_of_uint32 count).

(** The state after [events] more platform calls, the register holding [v]. *)
Definition after (w : world) (v : Z) (events : list event) : world :=
  {| store0 := v; trace := (trace w ++ events)%list |}.

(** How long [vTaskDelay(ticks)] waits, in milliseconds: a tick lasts
    [portTICK_PERIOD_MS] of them. *)
Definition ticks_to_ms (ticks : Z) : Z := ticks * portTICK_PERIOD_MS.

(** A token the argument loop has a branch for. *)
Definition known_token (a : string) : bool :=
  streq a "all" || streq a "flash" || streq a "monitor" ||
  Ascii.eqb (char0 a) "-"%char || isdigit (char0 a).

Definition is_reg_write (ev : event) : bool :=
  match ev with
  | EvRegWrite _ => true
  | _ => false
  end.

(** Any number of [make] invocations, one after the other; the register
    keeps its contents over a restart. *)
Inductive made : world -> world -> Prop :=
| made_none (w : world) : made w w
| made_more (w w1 w2 : world) (argv : list string) (e : exit) :
    call (make argv) w = Some (e, w1) -> made w1 w2 -> made w w2.

(** ** The other handlers *)

(** What the platform answers to [free] and [heap_dump]: the free heap size
    (a [uint32_t]) and the report [heap_caps_print_heap_info] prints for a
    capability mask. *)
Variable esp_get_free_heap_size : Z.
Variable heap_caps_report : Z -> string.

(** [printf("%" PRIu32, v)]: the decimal digits of a [uint32_t]. *)
Definition print_PRIu32 (v : Z) : string :=
  DecimalString.NilZero.string_of_uint (N.to_uint (Z.to_N (v mod 2 ^ 32))).

Definition heap_caps_print_heap_info (caps : Z) : cmd unit :=
  printf (heap_caps_report caps).

Definition free_mem (argv : list string) : cmd unit :=
  printf (print_PRIu32 esp_get_free_heap_size ++ LF) ;;
  return_ 0.

Definition dump_heap (argv : list string) : cmd unit :=
  heap_caps_print_heap_info 0 ;;
  return_ 0.

(** ** Registration *)

(** The handler a descriptor points to. *)
Inductive handler_fn : Type :=
| fn_restart
| fn_free_mem
| fn_dump_heap
| fn_tasks_info
| fn_make.

Record esp_console_cmd_t : Type := ConsoleCmd {
  command : string;
  help : option string;         (* [None] is [NULL] *)
  hint : option string;
  func : handler_fn
}.

(** [ESP_OK] of [esp_err.h]. *)
Definition ESP_OK : Z := 0.

(** The command table belongs to the console framework, and so does
    [esp_console_cmd_register], which answers an [esp_err_t]. The build
    option [CONFIG_FREERTOS_USE_STATS_FORMATTING_FUNCTIONS] decides
    [WITH_TASKS_INFO]. *)
Variable console : Type.
Variable esp_console_cmd_register : esp_console_cmd_t -> console -> Z * console.
Variable WITH_TASKS_INFO : bool.

(** Start-up code either goes on, or has called [abort]. *)
Inductive boot (A : Type) : Type :=
| Booted (a : A) (table : console)
| Aborted (err : Z) (table : console).

Arguments Booted {A} a table.
Arguments Aborted {A} err table.

Definition startup (A : Type) : Type := console -> boot A.

Definition and_then {A B} (c : startup A) (k : A -> startup B) : startup B :=
  fun table =>
    match c table with
    | Booted a table' => k a table'
    | Aborted err table' => Aborted err table'
    end.

Declare Scope boot_scope.
Delimit Scope boot_scope with boot.
Notation "c1 ;; c2" := (and_then c1 (fun _ => c2))
  (at level 61, right associativity) : boot_scope.

(** Modelled from the spec: the macro [ESP_ERROR_CHECK] of [esp_err.h],
    which is not part of [cmd_system.c]; a registration failure is fatal
    and aborts start-up. *)
Definition ESP_ERROR_CHECK (x : console -> Z * console) : startup unit :=
  fun table =>
    let (err, table') := x table in
    if err =? ESP_OK then Booted tt table' else Aborted err table'.

Definition register_restart : startup unit :=
  let cmd := {| command := "restart";
                help := Some "Restart the program";
                hint := None;
                func := fn_restart |} in
  ESP_ERROR_CHECK (esp_console_cmd_register cmd).

Definition register_free : startup unit :=
  let cmd := {| command := "free";
                help := Some "Get the total size of heap memory available";
                hint := None;
                func := fn_free_mem |} in
  ESP_ERROR_CHECK (esp_console_cmd_register cmd).

Definition register_heap_dump : startup unit :=
  let cmd := {| command := "heap_dump";
                help := Some "Dump the current heap stats";
                hint := None;
                func := fn_dump_heap |} in
  ESP_ERROR_CHECK (esp_console_cmd_register cmd).

Definition register_tasks : startup unit :=
  let cmd := {| command := "tasks";
                help := Some "Get information about running tasks";
                hint := None;
                func := fn_tasks_info |} in
  ESP_ERROR_CHECK (esp_console_cmd_register cmd).

Definition register_make : startup unit :=
  let cmd := {| command := "make";
                help := None;
                hint := Some "all | flash | monitor";
                func := fn_make |} in
  ESP_ERROR_CHECK (esp_console_cmd_register cmd).

Definition register_system : startup unit :=
  (register_free ;;
   register_heap_dump ;;
   register_restart ;;
   register_make ;;
   if WITH_TASKS_INFO then register_tasks else (fun table => Booted tt table))%boot.

(** A table kept as a list, the newest descriptor first, where registering
    never fails: a table to run [register_system] on. *)
Definition list_register (c : esp_console_cmd_t) (t : list esp_console_cmd_t)
  : Z * list esp_console_cmd_t :=
  (ESP_OK, c :: t).

Definition list_lookup (t : list esp_console_cmd_t) (name : string)
  : option esp_console_cmd_t :=
  find (fun c => String.eqb (command c) name) t.

(** ** More vocabulary *)

(** The flags the argument loop ends with when it accepts every token. *)
Definition requested (args : list string) : phases :=
  Phases (existsb (fun a => streq a "all" || streq a "flash") args)
         (existsb (fun a => streq a "flash") args)
         (existsb (fun a => streq a "monitor") args).

(** The calls of the three phases, for the arguments after [argv[0]]. *)
Definition phase_events (args : list string) : list event :=
  ((if need_make (requested args) || Nat.eqb (List.length args) 0
    then [EvPrint make_output] else []) ++
   (if need_flash (requested args)
    then flat_map (fun block =>
                     [EvPrint block; EvTaskDelay (200 / portTICK_PERIOD_MS)])
                  flash_output
    else []) ++
   (if need_monitor (requested args)
    then [EvPrint monitor_output; EvRestart] else []))%list.

(** A token the loop skips: it starts with [-] or with a digit. *)
Definition option_token (a : string) : bool :=
  Ascii.eqb (char0 a) "-"%char || isdigit (char0 a).

(** One console command after the other, [n] of them being [make]. *)
Inductive ran : world -> nat -> world -> Prop :=
| ran_none (w : world) : ran w 0%nat w
| ran_make (w w1 w2 : world) (n : nat) (argv : list string) (e : exit) :
    call (make argv) w = Some (e, w1) -> ran w1 n w2 -> ran w (S n) w2
| ran_free (w w1 w2 : world) (n : nat) (argv : list string) (e : exit) :
    call (free_mem argv) w = Some (e, w1) -> ran w1 n w2 -> ran w n w2
| ran_heap_dump (w w1 w2 : world) (n : nat) (argv : list string) (e : exit) :
    call (dump_heap argv) w = Some (e, w1) -> ran w1 n w2 -> ran w n w2
| ran_tasks (w w1 w2 : world) (n : nat) (argv : list string) (e : exit) :
    call (tasks_info argv) w = Some (e, w1) -> ran w1 n w2 -> ran w n w2.

(** ** C integers *)

Arguments int_of_uint32 : simpl never.
Arguments uint32_of_int : simpl never.
Arguments size_mul : simpl never.
Arguments Z.div : simpl never.

Lemma int_of_uint32_range (u : Z) :
  - 2 ^ 31 <= int_of_uint32 u < 2 ^ 31.
Proof.
  unfold int_of_uint32.
  pose proof (Z.mod_pos_bound u (2 ^ 32) ltac:(lia)) as Hm.
  destruct (Z.ltb_spec (u mod 2 ^ 32) (2 ^ 31)); lia.
Qed.

Lemma int_of_uint32_of_int (i : Z) :
  - 2 ^ 31 <= i < 2 ^ 31 -> int_of_uint32 (uint32_of_int i) = i.
Proof.
  intros Hi. unfold int_of_uint32, uint32_of_int.
  rewrite Z.mod_mod by lia.
  destruct (Z_lt_le_dec i 0) as [Hneg | Hpos].
  - replace (i mod 2 ^ 32) with (i + 2 ^ 32).
    + destruct (Z.ltb_spec (i + 2 ^ 32) (2 ^ 31)); lia.
    + apply Z.mod_unique with (q := -1); lia.
  - rewrite Z.mod_small by lia.
    destruct (Z.ltb_spec i (2 ^ 31)); lia.
Qed.

Lemma int_of_uint32_small (u : Z) :
  0 <= u < 2 ^ 31 -> int_of_uint32 u = u.
Proof.
  intros Hu. unfold int_of_uint32.
  rewrite Z.mod_small by lia.
  destruct (Z.ltb_spec u (2 ^ 31)); lia.
Qed.

(** ** The counter check of [make] *)

Lemma next_count_inv (w w' : world) (c : Z) :
  next_count w = Next c w' ->
  w' = w /\ c = int_of_uint32 (store0 w) + 1 /\ int_of_uint32 (store0 w) <> INT_MAX.
Proof.
  unfold next_count, bind, REG_READ, pre_incr.
  destruct (Z.eqb_spec (int_of_uint32 (store0 w)) INT_MAX) as [Heq | Hne].
  - discriminate.
  - intros H. inversion H; subst. repeat split; assumption.
Qed.

Lemma next_count_defined (w : world) :
  int_of_uint32 (store0 w) <> INT_MAX ->
  next_count w = Next (int_of_uint32 (store0 w) + 1) w.
Proof.
  intros Hne. unfold next_count, bind, REG_READ, pre_incr.
  destruct (Z.eqb_spec (int_of_uint32 (store0 w)) INT_MAX); [contradiction | reflexivity].
Qed.

Lemma make_at_limit (argv : list string) (w : world) (c : Z) :
  next_count w = Next c w -> 3 <= c ->
  make argv w = Exit (Returned 0) (after w (store0 w) [EvPrint refusal]).
Proof.
  intros Hc Hge. apply next_count_inv in Hc. destruct Hc as (_ & Hc & Hne).
  unfold make, bind, REG_READ, pre_incr.
  destruct (Z.eqb_spec (int_of_uint32 (store0 w)) INT_MAX); [contradiction |].
  rewrite <- Hc.
  destruct (Z.leb_spec 3 c); [reflexivity | lia].
Qed.

(** Runs [make] up to the argument loop when the count is below 3. *)
Ltac enter_make Hc Hlt :=
  let Heq := fresh "Heq" in
  let Hne := fresh "Hne" in
  apply next_count_inv in Hc; destruct Hc as (_ & Heq & Hne);
  unfold call, make, bind, REG_READ, pre_incr;
  match goal with
  | |- context [?x =? INT_MAX] =>
      destruct (Z.eqb_spec x INT_MAX); [contradiction |]
  end;
  rewrite <- Heq;
  match goal with
  | |- context [3 <=? ?c] => destruct (Z.leb_spec 3 c); [lia |]
  end;
  unfold when at 1, skip, pure at 1, REG_WRITE.

(** Brings a trace built call by call to the form [trace w ++ events]. *)
Ltac flatten_trace :=
  unfold after, emit; cbn [store0 trace];
  rewrite <- ?app_assoc; cbn [app].

Lemma scan_unknown (tok : string) (post : list string) (need : phases) (w : world) :
  known_token tok = false ->
  scan_args (tok :: post) need w =
  Exit (Returned 0) (emit (EvPrint (no_rule tok)) w).
Proof.
  unfold known_token. intros Hk.
  repeat (apply orb_false_elim in Hk; destruct Hk as [Hk ?]).
  cbn [scan_args].
  repeat match goal with H : _ = false |- _ => rewrite H; clear H end.
  reflexivity.
Qed.

Lemma scan_known (pre rest : list string) :
  forallb known_token pre = true ->
  forall (need : phases) (w : world),
    exists need', scan_args (pre ++ rest) need w = scan_args rest need' w.
Proof.
  induction pre as [| a pre IH]; intros Hall need w.
  - exists need. reflexivity.
  - cbn [forallb] in Hall. apply andb_true_iff in Hall. destruct Hall as [Ha Hpre].
    cbn [app scan_args].
    destruct (streq a "all") eqn:E1; [apply IH; assumption |].
    destruct (streq a "flash") eqn:E2; [apply IH; assumption |].
    destruct (streq a "monitor") eqn:E3; [apply IH; assumption |].
    destruct (Ascii.eqb (char0 a) "-") eqn:E4; [apply IH; assumption |].
    destruct (isdigit (char0 a)) eqn:E5; [apply IH; assumption |].
    unfold known_token in Ha. rewrite E1, E2, E3, E4, E5 in Ha. discriminate.
Qed.

Lemma make_no_rule (name tok : string) (pre post : list string)
    (w : world) (c : Z) :
  next_count w = Next c w -> c < 3 ->
  forallb known_token pre = true -> known_token tok = false ->
  make (name :: pre ++ tok :: post) w =
  Exit (Returned 0)
    (after w (uint32_of_int c)
       [EvRegWrite (uint32_of_int c); EvPrint (no_rule tok)]).
Proof.
  intros Hc Hlt Hpre Htok.
  enter_make Hc Hlt.
  cbn [skipn].
  match goal with
  | |- context [scan_args _ ?n ?w0] =>
      destruct (scan_known pre (tok :: post) Hpre n w0) as [need' Hscan];
      rewrite Hscan, (scan_unknown tok post need' w0 Htok)
  end.
  flatten_trace. reflexivity.
Qed.

Lemma scan_args_cases (args : list string) :
  forall (need : phases) (w : world),
    (exists need', scan_args args need w = Next need' w) \/
    (exists tok,
        In tok args /\ known_token tok = false /\
        scan_args args need w =
        Exit (Returned 0) (emit (EvPrint (no_rule tok)) w)).
Proof.
  induction args as [| a rest IH]; intros need w.
  - left. exists need. reflexivity.
  - assert (Hgo : forall need0,
               (exists need', scan_args rest need0 w = Next need' w) \/
               (exists tok,
                   In tok (a :: rest) /\ known_token tok = false /\
                   scan_args rest need0 w =
                   Exit (Returned 0) (emit (EvPrint (no_rule tok)) w))).
    { intros need0. destruct (IH need0 w) as [Hn | (tok & Hin & Hk & Hx)].
      - left. exact Hn.
      - right. exists tok. repeat split; auto. right. exact Hin. }
    destruct (known_token a) eqn:Hk.
    + unfold known_token in Hk. cbn [scan_args].
      destruct (streq a "all"); [apply Hgo |].
      destruct (streq a "flash"); [apply Hgo |].
      destruct (streq a "monitor"); [apply Hgo |].
      destruct (Ascii.eqb (char0 a) "-"); [apply Hgo |].
      destruct (isdigit (char0 a)); [apply Hgo | discriminate].
    + right. exists a. repeat split; auto.
      * left. reflexivity.
      * apply scan_unknown. exact Hk.
Qed.

(** What follows the argument loop makes no register write and keeps the
    register. *)
Lemma make_below_limit (argv : list string) (w : world) (c : Z) :
  next_count w = Next c w -> c < 3 ->
  exists (e : exit) (rest : list event),
    make argv w =
    Exit e (after w (uint32_of_int c) (EvRegWrite (uint32_of_int c) :: rest)) /\
    existsb is_reg_write rest = false.
Proof.
  intros Hc Hlt.
  enter_make Hc Hlt.
  match goal with
  | |- context [scan_args ?a ?n ?w0] =>
      destruct (scan_args_cases a n w0) as [[need' Hs] | (tok & _ & _ & Hs)];
      rewrite Hs; clear Hs
  end.
  - destruct need' as [nm nf nmon], (Z.of_nat (List.length argv) =? 1), nm, nf, nmon;
      eexists; eexists; cbn -[Z.div uint32_of_int monitor_output];
      flatten_trace; (split; [reflexivity | reflexivity]).
  - eexists; eexists. flatten_trace. split; reflexivity.
Qed.

Lemma scan_monitor (args : list string) :
  forallb known_token args = true ->
  forall (need : phases) (w : world),
    need_monitor need = true \/ In "monitor" args ->
    exists need',
      scan_args args need w = Next need' w /\ need_monitor need' = true.
Proof.
  induction args as [| a rest IH]; intros Hall need w Hmon.
  - destruct Hmon as [Hmon | []]. exists need. split; [reflexivity | exact Hmon].
  - cbn [forallb] in Hall. apply andb_true_iff in Hall. destruct Hall as [Ha Hrest].
    assert (Hnot : streq a "monitor" = false ->
                   need_monitor need = true \/ In "monitor" rest).
    { intros Hne. destruct Hmon as [Hmon | [Heq | Hin]]; auto.
      subst a. discriminate. }
    unfold known_token in Ha. cbn [scan_args].
    destruct (streq a "monitor") eqn:Em.
    + assert (Ha0 : a = "monitor") by (apply String.eqb_eq; exact Em).
      subst a. cbn. apply IH; [exact Hrest | left; reflexivity].
    + specialize (Hnot eq_refl).
      destruct (streq a "all"); [apply IH; cbn; assumption |].
      destruct (streq a "flash"); [apply IH; cbn; assumption |].
      destruct (Ascii.eqb (char0 a) "-"); [apply IH; assumption |].
      destruct (isdigit (char0 a)); [apply IH; assumption | discriminate].
Qed.

(** With [monitor] among tokens the loop accepts, the handler ends in the
    banner and the restart, after the blocks the other tokens ask for. *)
Lemma make_monitor_among_known (name : string) (args : list string)
    (w : world) (c : Z) :
  next_count w = Next c w -> c < 3 ->
  forallb known_token args = true -> In "monitor" args ->
  exists blocks : list event,
    call (make (name :: args)) w =
    Some (Restarted,
          after w (uint32_of_int c)
            (EvRegWrite (uint32_of_int c) ::
             blocks ++ [EvPrint monitor_output; EvRestart])).
Proof.
  intros Hc Hlt Hall Hin.
  enter_make Hc Hlt. cbn [skipn].
  match goal with
  | |- context [scan_args args ?n ?w0] =>
      destruct (scan_monitor args Hall n w0 (or_intror Hin))
        as ([nm nf nmon] & Hs & Hmon);
      rewrite Hs; clear Hs
  end.
  cbn [need_monitor] in Hmon. subst nmon.
  destruct (Z.of_nat (List.length (name :: args)) =? 1), nm, nf;
    cbn -[Z.div uint32_of_int monitor_output]; flatten_trace.
  all: match goal with
       | |- exists _, Some (_, {| store0 := _; trace := (_ ++ _ :: ?l)%list |}) = _ =>
           exists (removelast (removelast l)); reflexivity
       end.
Qed.

(** ** The scripted [make] command *)

(** C3: when the incremented count is 3 or more, [make] prints the refusal
    line and nothing else, whatever its arguments: no register write, no
    phase block, and it returns (with status 0). *)
Theorem make_refuses_at_3 (argv : list string) (w : world) (c : Z) :
  next_count w = Next c w -> 3 <= c ->
  call (make argv) w =
  Some (Returned 0,
        after w (store0 w)
          [EvPrint ("This is not the console you are looking for." ++ LF)]).
Proof.
  intros Hc Hge. unfold call.
  rewrite (make_at_limit argv w c Hc Hge). reflexivity.
Qed.

(** C4: [make flash] below the limit prints the make block, then the five
    flash blocks in array order, each followed by one [vTaskDelay] of
    [200 / portTICK_PERIOD_MS] ticks, and returns 0. Such a delay lasts
    200 ms when the tick period divides 200. *)
Theorem make_flash_transcript (name : string) (w : world) (c : Z) :
  next_count w = Next c w -> c < 3 ->
  exists b1 b2 b3 b4 b5 : string,
    flash_output = [b1; b2; b3; b4; b5] /\
    call (make [name; "flash"]) w =
    Some (Returned 0,
          after w (uint32_of_int c)
            [EvRegWrite (uint32_of_int c);
             EvPrint make_output;
             EvPrint b1; EvTaskDelay (200 / portTICK_PERIOD_MS);
             EvPrint b2; EvTaskDelay (200 / portTICK_PERIOD_MS);
             EvPrint b3; EvTaskDelay (200 / portTICK_PERIOD_MS);
             EvPrint b4; EvTaskDelay (200 / portTICK_PERIOD_MS);
             EvPrint b5; EvTaskDelay (200 / portTICK_PERIOD_MS)]) /\
    (0 < portTICK_PERIOD_MS -> (portTICK_PERIOD_MS | 200) ->
     ticks_to_ms (200 / portTICK_PERIOD_MS) = 200).
Proof.
  intros Hc Hlt.
  do 5 eexists. split; [reflexivity |]. split.
  - enter_make Hc Hlt.
    cbn -[Z.div uint32_of_int].
    flatten_trace. reflexivity.
  - intros Hpos [k Hk]. unfold ticks_to_ms.
    rewrite Hk, Z.div_mul by lia. reflexivity.
Qed.

(** C5: [make monitor] below the limit prints the monitor banner and calls
    [esp_restart]; the handler does not return. *)
Theorem make_monitor_restarts (name : string) (w : world) (c : Z) :
  next_count w = Next c w -> c < 3 ->
  call (make [name; "monitor"]) w =
  Some (Restarted,
        after w (uint32_of_int c)
          [EvRegWrite (uint32_of_int c); EvPrint monitor_output; EvRestart]).
Proof.
  intros Hc Hlt.
  enter_make Hc Hlt.
  cbn -[Z.div uint32_of_int monitor_output].
  flatten_trace. reflexivity.
Qed.

(** C6: [make bogus] below the limit prints the one line
    "make: *** No rule to make target `bogus'.  Stop." and returns 0. *)
Theorem make_bogus_status_0 (name : string) (w : world) (c : Z) :
  next_count w = Next c w -> c < 3 ->
  call (make [name; "bogus"]) w =
  Some (Returned 0,
        after w (uint32_of_int c)
          [EvRegWrite (uint32_of_int c);
           EvPrint ("make: *** No rule to make target `bogus'.  Stop." ++ LF)]).
Proof.
  intros Hc Hlt. unfold call.
  change [name; "bogus"] with (name :: [] ++ "bogus" :: []).
  rewrite (make_no_rule name "bogus" [] [] w c Hc Hlt eq_refl eq_refl).
  reflexivity.
Qed.

Lemma make_all_or_nothing (name : string) (argv : list string)
    (w : world) (c : Z) :
  next_count w = Next c w -> c < 3 ->
  In argv [[name]; [name; "all"]] ->
  call (make argv) w =
  Some (Returned 0,
        after w (uint32_of_int c)
          [EvRegWrite (uint32_of_int c); EvPrint make_output]).
Proof.
  intros Hc Hlt Hin. cbn [In] in Hin.
  destruct Hin as [<- | [<- | []]];
    enter_make Hc Hlt; cbn -[Z.div uint32_of_int];
    flatten_trace; reflexivity.
Qed.

(** C7: from a register holding 0, the first and the second invocation,
    each with no argument or with [all], print the make block and only
    that: no refusal line, no flash block, no monitor banner. *)
Theorem make_first_and_second (n1 n2 : string) (argv1 argv2 : list string)
    (events : list event) :
  In argv1 [[n1]; [n1; "all"]] -> In argv2 [[n2]; [n2; "all"]] ->
  let w0 := World 0 events in
  let w1 := after w0 1 [EvRegWrite 1; EvPrint make_output] in
  let w2 := after w1 2 [EvRegWrite 2; EvPrint make_output] in
  call (make argv1) w0 = Some (Returned 0, w1) /\
  call (make argv2) w1 = Some (Returned 0, w2).
Proof.
  intros H1 H2 w0 w1 w2. split.
  - exact (make_all_or_nothing n1 argv1 w0 1 eq_refl ltac:(lia) H1).
  - exact (make_all_or_nothing n2 argv2 w1 2 eq_refl ltac:(lia) H2).
Qed.

Lemma known_token_false (tok : string) :
  tok <> "all" -> tok <> "flash" -> tok <> "monitor" ->
  char0 tok <> "-"%char -> isdigit (char0 tok) = false ->
  known_token tok = false.
Proof.
  intros Ha Hf Hm Hd Hdigit. unfold known_token, streq.
  apply String.eqb_neq in Ha, Hf, Hm. apply Ascii.eqb_neq in Hd.
  rewrite Ha, Hf, Hm, Hd, Hdigit. reflexivity.
Qed.

(** C1, as the code has it: the first token that is not [all], [flash] or
    [monitor] and starts neither with [-] nor with a digit ends the
    command. [make] prints the error line for that token and returns 0 at
    once: the tokens after it are not looked at and no phase block is
    printed, whatever the other tokens ask for. *)
Theorem make_unknown_target_stops (name tok : string) (pre post : list string)
    (w : world) (c : Z) :
  next_count w = Next c w -> c < 3 ->
  forallb known_token pre = true ->
  tok <> "all" -> tok <> "flash" -> tok <> "monitor" ->
  char0 tok <> "-"%char -> isdigit (char0 tok) = false ->
  call (make (name :: pre ++ tok :: post)) w =
  Some (Returned 0,
        after w (uint32_of_int c)
          [EvRegWrite (uint32_of_int c);
           EvPrint ("make: *** No rule to make target `" ++ tok ++
                    "'.  Stop." ++ LF)]).
Proof.
  intros Hc Hlt Hpre Ha Hf Hm Hd Hdigit. unfold call.
  rewrite (make_no_rule name tok pre post w c Hc Hlt Hpre
             (known_token_false tok Ha Hf Hm Hd Hdigit)).
  reflexivity.
Qed.

(** C2, as the code has it: every invocation reads the register; the
    incremented count is written back exactly when it is below 3, as the
    first thing the handler does and as its only write. An invocation that
    ends in the refusal line writes nothing and leaves the register as it
    was. No other value is ever written, so the counter is never reset. *)
Theorem make_writes_back_below_3 (argv : list string) (w : world) (c : Z) :
  next_count w = Next c w ->
  exists (e : exit) (w' : world) (events : list event),
    call (make argv) w = Some (e, w') /\
    trace w' = (trace w ++ events)%list /\
    (c < 3 ->
     store0 w' = uint32_of_int c /\
     exists rest,
       events = EvRegWrite (uint32_of_int c) :: rest /\
       existsb is_reg_write rest = false) /\
    (3 <= c ->
     store0 w' = store0 w /\ events = [EvPrint refusal]).
Proof.
  intros Hc. destruct (Z_lt_le_dec c 3) as [Hlt | Hge].
  - destruct (make_below_limit argv w c Hc Hlt) as (e & rest & Hm & Hrest).
    exists e. eexists. eexists. unfold call. rewrite Hm.
    split; [reflexivity |]. split; [reflexivity |].
    split; [| lia]. intros _. split; [reflexivity |].
    exists rest. split; [reflexivity | exact Hrest].
  - exists (Returned 0). eexists. eexists. unfold call.
    rewrite (make_at_limit argv w c Hc Hge).
    split; [reflexivity |]. split; [reflexivity |].
    split; [lia |]. intros _. split; reflexivity.
Qed.

(** C10: the count is checked and written back before the arguments are
    looked at. An invocation below the limit that only prints the
    'no rule to make target' line has still stored the incremented count,
    so the next invocation starts from it. *)
Theorem make_unknown_target_counts (name tok : string) (pre post : list string)
    (w : world) (c : Z) :
  next_count w = Next c w -> c < 3 ->
  forallb known_token pre = true -> known_token tok = false ->
  exists w' : world,
    call (make (name :: pre ++ tok :: post)) w = Some (Returned 0, w') /\
    trace w' =
      (trace w ++ [EvRegWrite (uint32_of_int c); EvPrint (no_rule tok)])%list /\
    store0 w' = uint32_of_int c /\
    next_count w' = Next (c + 1) w'.
Proof.
  intros Hc Hlt Hpre Htok. eexists. unfold call.
  rewrite (make_no_rule name tok pre post w c Hc Hlt Hpre Htok).
  split; [reflexivity |]. split; [reflexivity |]. split; [reflexivity |].
  apply next_count_inv in Hc. destruct Hc as (_ & Hc & _).
  pose proof (int_of_uint32_range (store0 w)) as Hr.
  match goal with
  | |- next_count ?w1 = _ =>
      assert (Hi : int_of_uint32 (store0 w1) = c)
        by (apply int_of_uint32_of_int; lia);
      rewrite (next_count_defined w1), Hi;
      [reflexivity | rewrite Hi; unfold INT_MAX; lia]
  end.
Qed.

(** ** The counter over many invocations *)

Lemma make_overflow (argv : list string) (w : world) :
  int_of_uint32 (store0 w) = INT_MAX -> make argv w = Undef.
Proof.
  intros Hmax. unfold make, bind, REG_READ, pre_incr.
  rewrite Hmax. reflexivity.
Qed.

Lemma call_make_counts (argv : list string) (w w' : world) (e : exit) :
  call (make argv) w = Some (e, w') ->
  next_count w = Next (int_of_uint32 (store0 w) + 1) w.
Proof.
  intros Hcall. apply next_count_defined. intros Hmax.
  unfold call in Hcall. rewrite (make_overflow argv w Hmax) in Hcall.
  discriminate.
Qed.

Lemma made_at_limit (w w' : world) :
  made w w' -> 2 <= int_of_uint32 (store0 w) < INT_MAX ->
  store0 w' = store0 w.
Proof.
  induction 1 as [w | w w1 w2 argv e Hcall _ IH]; intros Hr.
  - reflexivity.
  - unfold call in Hcall.
    rewrite (make_at_limit argv w (int_of_uint32 (store0 w) + 1)) in Hcall
      by (try apply next_count_defined; lia).
    inversion Hcall; subst w1. cbn [after store0] in IH.
    apply IH. exact Hr.
Qed.

Lemma made_from_small (w w' : world) :
  made w w' -> 0 <= store0 w <= 2 -> store0 w <= store0 w' <= 2.
Proof.
  induction 1 as [w | w w1 w2 argv e Hcall _ IH]; intros Hr.
  - lia.
  - pose proof (call_make_counts argv w w1 e Hcall) as Hc.
    rewrite (int_of_uint32_small (store0 w)) in Hc by lia.
    unfold call in Hcall.
    destruct (Z_lt_le_dec (store0 w + 1) 3) as [Hlt | Hge].
    + destruct (make_below_limit argv w _ Hc Hlt) as (e' & rest & Hm & _).
      rewrite Hm in Hcall. inversion Hcall; subst w1.
      cbn [after store0] in IH. unfold uint32_of_int in IH.
      rewrite Z.mod_small in IH by lia. lia.
    + rewrite (make_at_limit argv w _ Hc Hge) in Hcall.
      inversion Hcall; subst w1. cbn [after store0] in IH. lia.
Qed.

(** C9: [make] writes only counts below 3 (read as [int]) to the register;
    a register that holds 0, 1 or 2 holds at most 2 after any number of
    invocations, and never less than before; and once the incremented count
    is 3 or more, the register keeps its value and every later invocation
    refuses, whatever its arguments. *)
Theorem make_counter_capped :
  (forall (argv : list string) (w w' : world) (e : exit),
      call (make argv) w = Some (e, w') ->
      exists events : list event,
        trace w' = (trace w ++ events)%list /\
        forall v : Z, In (EvRegWrite v) events -> int_of_uint32 v < 3) /\
  (forall w w' : world,
      0 <= store0 w <= 2 -> made w w' -> store0 w <= store0 w' <= 2) /\
  (forall (w : world) (c : Z),
      next_count w = Next c w -> 3 <= c ->
      forall w' : world, made w w' ->
        store0 w' = store0 w /\
        forall argv : list string,
          call (make argv) w' =
          Some (Returned 0, after w' (store0 w') [EvPrint refusal])).
Proof.
  split; [| split].
  - intros argv w w' e Hcall.
    pose proof (call_make_counts argv w w' e Hcall) as Hc.
    pose proof (int_of_uint32_range (store0 w)) as Hr.
    unfold call in Hcall.
    destruct (Z_lt_le_dec (int_of_uint32 (store0 w) + 1) 3) as [Hlt | Hge].
    + destruct (make_below_limit argv w _ Hc Hlt) as (e' & rest & Hm & Hrest).
      rewrite Hm in Hcall. inversion Hcall; subst e w'.
      eexists. split; [reflexivity |].
      intros v [Hv | Hv].
      * inversion Hv. rewrite int_of_uint32_of_int; lia.
      * exfalso. assert (Hex : existsb is_reg_write rest = true)
          by (apply existsb_exists; exists (EvRegWrite v); auto).
        rewrite Hrest in Hex. discriminate.
    + rewrite (make_at_limit argv w _ Hc Hge) in Hcall.
      inversion Hcall; subst e w'.
      eexists. split; [reflexivity |].
      intros v [Hv | []]. discriminate.
  - intros w w' Hr Hmade. exact (made_from_small w w' Hmade Hr).
  - intros w c Hc Hge w' Hmade.
    apply next_count_inv in Hc. destruct Hc as (_ & Hc & Hne).
    pose proof (int_of_uint32_range (store0 w)) as Hr.
    assert (Hkeep : store0 w' = store0 w)
      by (apply made_at_limit; [exact Hmade | unfold INT_MAX in *; lia]).
    split; [exact Hkeep |].
    intros argv. unfold call.
    rewrite (make_at_limit argv w' c); [reflexivity | | exact Hge].
    rewrite Hc, <- Hkeep. apply next_count_defined. rewrite Hkeep. exact Hne.
Qed.

(** ** The [tasks] command *)

(** C8: when [malloc] returns [NULL], [tasks_info] logs the error and
    returns 1; it prints neither the header nor a task record and frees
    nothing. When [malloc] gives a buffer, it prints the header and the
    task list, frees that buffer and returns 0. *)
Theorem tasks_info_allocation (argv : list string) (w : world) :
  let bytes := size_mul uxTaskGetNumberOfTasks 40 in
  (heap_malloc bytes = None ->
   call (tasks_info argv) w =
   Some (Returned 1,
         after w (store0 w)
           [EvMalloc bytes;
            EvLogE "tasks_info" "failed to allocate buffer for vTaskList output"])) /\
  (forall buffer : Z,
      heap_malloc bytes = Some buffer ->
      call (tasks_info argv) w =
      Some (Returned 0,
            after w (store0 w)
              [EvMalloc bytes;
               EvPrint tasks_header; EvPrint task_list;
               EvFree buffer])).
Proof.
  intros bytes. split; [intros Hnull | intros buffer Hbuf];
    unfold call, tasks_info, bind, malloc; fold bytes;
    [rewrite Hnull | rewrite Hbuf];
    cbn -[tasks_header]; flatten_trace; reflexivity.
Qed.

(** ** [make] on argument lists the loop accepts *)

Lemma option_token_is_no_target (a : string) :
  option_token a = true ->
  streq a "all" = false /\ streq a "flash" = false /\ streq a "monitor" = false.
Proof.
  intros Hopt. unfold streq.
  repeat split.
  - destruct (String.eqb_spec a "all") as [-> | _]; [discriminate | reflexivity].
  - destruct (String.eqb_spec a "flash") as [-> | _]; [discriminate | reflexivity].
  - destruct (String.eqb_spec a "monitor") as [-> | _]; [discriminate | reflexivity].
Qed.

Lemma scan_accepts (args : list string) :
  forallb known_token args = true ->
  forall (need : phases) (w : world),
    scan_args args need w =
    Next (Phases (need_make need || need_make (requested args))
                 (need_flash need || need_flash (requested args))
                 (need_monitor need || need_monitor (requested args))) w.
Proof.
  induction args as [| a rest IH]; intros Hall need w.
  - destruct need as [nm nf nmon]. cbn. rewrite !orb_false_r. reflexivity.
  - cbn [forallb] in Hall. apply andb_true_iff in Hall. destruct Hall as [Ha Hrest].
    unfold known_token in Ha. cbn [scan_args requested existsb need_make need_flash need_monitor].
    unfold streq in *.
    destruct (String.eqb_spec a "all") as [-> | _].
    { rewrite (IH Hrest). cbn. f_equal; rewrite ?orb_true_r; reflexivity. }
    destruct (String.eqb_spec a "flash") as [-> | _].
    { rewrite (IH Hrest). cbn. f_equal; rewrite ?orb_true_r; reflexivity. }
    destruct (String.eqb_spec a "monitor") as [-> | _].
    { rewrite (IH Hrest). cbn. f_equal; rewrite ?orb_true_r; reflexivity. }
    cbn [orb] in Ha |- *.
    destruct (Ascii.eqb (char0 a) "-"); [apply (IH Hrest) |].
    destruct (isdigit (char0 a)); [apply (IH Hrest) | discriminate].
Qed.

Lemma make_accepts (name : string) (args : list string) (w : world) (c : Z) :
  next_count w = Next c w -> c < 3 ->
  forallb known_token args = true ->
  make (name :: args) w =
  Exit (if need_monitor (requested args) then Restarted else Returned 0)
    (after w (uint32_of_int c)
       (EvRegWrite (uint32_of_int c) :: phase_events args)).
Proof.
  intros Hc Hlt Hall.
  enter_make Hc Hlt. cbn [skipn].
  rewrite (scan_accepts args Hall). unfold phase_events.
  assert (Hargc : (Z.of_nat (List.length (name :: args)) =? 1) =
                  Nat.eqb (List.length args) 0).
  { destruct args as [| a rest]; [reflexivity |].
    cbn [List.length Nat.eqb]. apply Z.eqb_neq. lia. }
  rewrite Hargc.
  destruct (requested args) as [nm nf nmon].
  destruct (Nat.eqb (List.length args) 0), nm, nf, nmon;
    cbn -[Z.div uint32_of_int monitor_output];
    flatten_trace; reflexivity.
Qed.

Lemma requested_targets (args : list string) :
  (need_make (requested args) = true <-> In "all" args \/ In "flash" args) /\
  (need_flash (requested args) = true <-> In "flash" args) /\
  (need_monitor (requested args) = true <-> In "monitor" args).
Proof.
  unfold requested, streq. cbn [need_make need_flash need_monitor].
  rewrite !existsb_exists. repeat split.
  - intros (a & Hin & Ha). apply orb_true_iff in Ha.
    destruct Ha as [Ha | Ha]; apply String.eqb_eq in Ha; subst a; auto.
  - intros [Hin | Hin]; [exists "all" | exists "flash"]; auto.
  - intros (a & Hin & Ha). apply String.eqb_eq in Ha. subst a. exact Hin.
  - intros Hin. exists "flash". auto.
  - intros (a & Hin & Ha). apply String.eqb_eq in Ha. subst a. exact Hin.
  - intros Hin. exists "monitor". auto.
Qed.

(** X1: for arguments the loop accepts, what [make] does depends only on
    which targets occur: the make block when there is no argument or [all]
    or [flash] occurs, then the flash blocks with their delays when [flash]
    occurs, then the banner and the restart when [monitor] occurs. *)
Theorem make_accepted_targets (name : string) (args : list string)
    (w : world) (c : Z) :
  next_count w = Next c w -> c < 3 ->
  forallb known_token args = true ->
  call (make (name :: args)) w =
  Some (if need_monitor (requested args) then Restarted else Returned 0,
        after w (uint32_of_int c)
          (EvRegWrite (uint32_of_int c) :: phase_events args)) /\
  (need_make (requested args) = true <-> In "all" args \/ In "flash" args) /\
  (need_flash (requested args) = true <-> In "flash" args) /\
  (need_monitor (requested args) = true <-> In "monitor" args).
Proof.
  intros Hc Hlt Hall. split.
  - unfold call. rewrite (make_accepts name args w c Hc Hlt Hall). reflexivity.
  - apply requested_targets.
Qed.

Lemma existsb_permutation {A} (f : A -> bool) (l l' : list A) :
  Permutation l l' -> existsb f l = existsb f l'.
Proof.
  induction 1 as [| x l l' _ IH | x y l | l l' l'' _ IH1 _ IH2]; cbn.
  - reflexivity.
  - rewrite IH. reflexivity.
  - destruct (f x), (f y); reflexivity.
  - rewrite IH1. exact IH2.
Qed.

Lemma forallb_permutation {A} (f : A -> bool) (l l' : list A) :
  Permutation l l' -> forallb f l = forallb f l'.
Proof.
  induction 1 as [| x l l' _ IH | x y l | l l' l'' _ IH1 _ IH2]; cbn.
  - reflexivity.
  - rewrite IH. reflexivity.
  - destruct (f x), (f y); reflexivity.
  - rewrite IH1. exact IH2.
Qed.

(** [make] with two argument vectors that ask for the same phases. *)
Lemma make_same_request (name name' : string) (args args' : list string)
    (w : world) :
  forallb known_token args = true -> forallb known_token args' = true ->
  requested args = requested args' ->
  Nat.eqb (List.length args) 0 = Nat.eqb (List.length args') 0 ->
  make (name :: args) w = make (name' :: args') w.
Proof.
  intros Hall Hall' Hreq Hlen.
  destruct (Z.eq_dec (int_of_uint32 (store0 w)) INT_MAX) as [Hmax | Hne].
  - rewrite !make_overflow by exact Hmax. reflexivity.
  - pose proof (next_count_defined w Hne) as Hc.
    destruct (Z_lt_le_dec (int_of_uint32 (store0 w) + 1) 3) as [Hlt | Hge].
    + rewrite (make_accepts name args w _ Hc Hlt Hall).
      rewrite (make_accepts name' args' w _ Hc Hlt Hall').
      unfold phase_events. rewrite Hreq, Hlen. reflexivity.
    + rewrite !(make_at_limit _ w _ Hc Hge). reflexivity.
Qed.

(** X2: the order of accepted arguments does not matter, nor does the
    command name in [argv[0]]: permuted argument lists give the same run. *)
Theorem make_order_irrelevant (name name' : string) (args args' : list string)
    (w : world) :
  forallb known_token args = true ->
  Permutation args args' ->
  call (make (name :: args)) w = call (make (name' :: args')) w.
Proof.
  intros Hall Hperm. unfold call.
  rewrite (make_same_request name name' args args' w); [reflexivity | exact Hall | | |].
  - rewrite <- (forallb_permutation known_token args args' Hperm). exact Hall.
  - unfold requested. f_equal; apply existsb_permutation; exact Hperm.
  - rewrite (Permutation_length Hperm). reflexivity.
Qed.

Lemma requested_options (args : list string) :
  requested (filter (fun a => negb (option_token a)) args) = requested args.
Proof.
  induction args as [| a rest IH]; [reflexivity |].
  cbn [filter]. destruct (option_token a) eqn:Hopt; cbn [negb].
  - destruct (option_token_is_no_target a Hopt) as (Ha & Hf & Hm).
    rewrite IH. unfold requested. cbn [existsb]. rewrite Ha, Hf, Hm. reflexivity.
  - unfold requested in *. cbn [existsb].
    injection IH as IH1 IH2 IH3. rewrite IH1, IH2, IH3. reflexivity.
Qed.

Lemma option_token_known (a : string) :
  option_token a = true -> known_token a = true.
Proof.
  unfold option_token, known_token. intros Hopt.
  apply orb_true_iff in Hopt. destruct Hopt as [-> | ->];
    rewrite ?orb_true_r; reflexivity.
Qed.

(** X3: arguments that are all options (a first character [-] or a digit)
    ask for nothing. Unlike [make] without arguments, [make -j4] prints no
    block: it stores the count and returns 0. *)
Theorem make_options_only (name : string) (args : list string)
    (w : world) (c : Z) :
  next_count w = Next c w -> c < 3 ->
  args <> [] -> forallb option_token args = true ->
  call (make (name :: args)) w =
  Some (Returned 0, after w (uint32_of_int c) [EvRegWrite (uint32_of_int c)]).
Proof.
  intros Hc Hlt Hne Hopt. unfold call.
  assert (Hall : forallb known_token args = true).
  { apply forallb_forall. intros a Hin. apply option_token_known.
    exact (proj1 (forallb_forall _ _) Hopt a Hin). }
  assert (Hreq : requested args = no_phase).
  { rewrite <- requested_options.
    replace (filter (fun a => negb (option_token a)) args) with (@nil string);
      [reflexivity |].
    clear Hne Hall. induction args as [| a rest IH]; [reflexivity |].
    cbn [forallb] in Hopt. apply andb_true_iff in Hopt. destruct Hopt as [Ha Hrest].
    cbn [filter]. rewrite Ha. cbn [negb]. apply IH. exact Hrest. }
  rewrite (make_accepts name args w c Hc Hlt Hall).
  unfold phase_events. rewrite Hreq.
  destruct args as [| a rest]; [contradiction |]. reflexivity.
Qed.

(** X4: beside at least one target, options change nothing: dropping them
    from an accepted argument list gives the same run. *)
Theorem make_options_ignored (name : string) (args : list string) (w : world) :
  forallb known_token args = true ->
  filter (fun a => negb (option_token a)) args <> [] ->
  call (make (name :: args)) w =
  call (make (name :: filter (fun a => negb (option_token a)) args)) w.
Proof.
  intros Hall Hne. unfold call.
  rewrite (make_same_request name name args
             (filter (fun a => negb (option_token a)) args) w);
    [reflexivity | exact Hall | | |].
  - apply forallb_forall. intros a Hin. apply filter_In in Hin.
    exact (proj1 (forallb_forall _ _) Hall a (proj1 Hin)).
  - symmetry. apply requested_options.
  - destruct args as [| a rest]; [contradiction Hne; reflexivity |].
    destruct (filter (fun a0 => negb (option_token a0)) (a :: rest));
      [contradiction Hne; reflexivity | reflexivity].
Qed.

(** ** How [make] ends *)

Lemma scan_monitor_flag (args : list string) :
  forall (need need' : phases) (w w' : world),
    scan_args args need w = Next need' w' ->
    need_monitor need' = true ->
    need_monitor need = true \/ In "monitor" args.
Proof.
  induction args as [| a rest IH]; intros need need' w w' Hs Hmon.
  - inversion Hs; subst. left. exact Hmon.
  - cbn [scan_args] in Hs. unfold streq in Hs.
    assert (Hrest : forall need0,
               scan_args rest need0 w = Next need' w' ->
               need_monitor need0 = need_monitor need ->
               need_monitor need = true \/ In "monitor" (a :: rest)).
    { intros need0 Hs0 Hsame.
      destruct (IH need0 need' w w' Hs0 Hmon) as [H | H].
      - left. rewrite <- Hsame. exact H.
      - right. right. exact H. }
    destruct (String.eqb_spec a "all"); [apply (Hrest _ Hs); reflexivity |].
    destruct (String.eqb_spec a "flash"); [apply (Hrest _ Hs); reflexivity |].
    destruct (String.eqb_spec a "monitor") as [-> | _];
      [right; left; reflexivity |].
    destruct (Ascii.eqb (char0 a) "-"); [apply (Hrest _ Hs); reflexivity |].
    destruct (isdigit (char0 a)); [apply (Hrest _ Hs); reflexivity |].
    discriminate.
Qed.

(** X5: [make] never returns a status other than 0. It ends either in
    [return 0] or in the restart, and in the restart only when [monitor] is
    among the arguments after [argv[0]]. *)
Theorem make_status (argv : list string) (w w' : world) (e : exit) :
  call (make argv) w = Some (e, w') ->
  e = Returned 0 \/ (e = Restarted /\ In "monitor" (skipn 1 argv)).
Proof.
  intros Hcall.
  pose proof (call_make_counts argv w w' e Hcall) as Hc.
  remember (int_of_uint32 (store0 w) + 1) as c eqn:Hcount.
  destruct (Z_lt_le_dec c 3) as [Hlt | Hge].
  - clear Hcount. revert e w' Hcall.
    enter_make Hc Hlt.
    match goal with
    | |- context [scan_args ?a ?n ?w0] =>
        destruct (scan_args_cases a n w0) as [[need' Hs] | (tok & _ & _ & Hs)];
        rewrite Hs
    end.
    + pose proof (scan_monitor_flag _ _ _ _ _ Hs) as Hflag.
      destruct need' as [nm nf nmon].
      destruct (Z.of_nat (List.length argv) =? 1), nm, nf, nmon;
        cbn -[Z.div uint32_of_int monitor_output];
        intros e w' Hcall; inversion Hcall; subst; auto;
        right; (split; [reflexivity |]);
        destruct (Hflag eq_refl) as [Habs | Hin];
        solve [discriminate Habs | exact Hin].
    + intros e w' Hcall. inversion Hcall. left. reflexivity.
  - unfold call in Hcall. rewrite (make_at_limit argv w _ Hc Hge) in Hcall.
    inversion Hcall. left. reflexivity.
Qed.


(** X7: the count is a signed [int]. A register with its top bit set reads
    as a negative count, so [make] does not refuse: it stores the register
    value plus one, modulo 2^32, and goes on to its arguments. *)
Theorem make_negative_count (argv : list string) (w : world) :
  2 ^ 31 <= store0 w < 2 ^ 32 ->
  exists (e : exit) (w' : world) (rest : list event),
    call (make argv) w = Some (e, w') /\
    store0 w' = (store0 w + 1) mod 2 ^ 32 /\
    trace w' =
      (trace w ++ EvRegWrite ((store0 w + 1) mod 2 ^ 32) :: rest)%list /\
    existsb is_reg_write rest = false.
Proof.
  intros Hr.
  assert (Hint : int_of_uint32 (store0 w) = store0 w - 2 ^ 32).
  { unfold int_of_uint32. rewrite Z.mod_small by lia.
    destruct (Z.ltb_spec (store0 w) (2 ^ 31)); lia. }
  assert (Hc : next_count w = Next (store0 w - 2 ^ 32 + 1) w).
  { rewrite <- Hint. apply next_count_defined. rewrite Hint. unfold INT_MAX. lia. }
  destruct (make_below_limit argv w _ Hc ltac:(lia)) as (e & rest & Hm & Hrest).
  assert (Hv : uint32_of_int (store0 w - 2 ^ 32 + 1) = (store0 w + 1) mod 2 ^ 32).
  { unfold uint32_of_int.
    replace (store0 w - 2 ^ 32 + 1) with (store0 w + 1 + (-1) * 2 ^ 32) by lia.
    apply Z.mod_add. lia. }
  rewrite Hv in Hm.
  exists e. eexists. exists rest. unfold call. rewrite Hm.
  split; [reflexivity |]. split; [reflexivity |].
  split; [reflexivity | exact Hrest].
Qed.


(** ** The counter and the other commands *)

Lemma free_mem_keeps_register (argv : list string) (w w1 : world) (e : exit) :
  call (free_mem argv) w = Some (e, w1) -> store0 w1 = store0 w.
Proof.
  unfold call, free_mem, bind, printf, return_. intros H. inversion H. reflexivity.
Qed.

Lemma dump_heap_keeps_register (argv : list string) (w w1 : world) (e : exit) :
  call (dump_heap argv) w = Some (e, w1) -> store0 w1 = store0 w.
Proof.
  unfold call, dump_heap, heap_caps_print_heap_info, bind, printf, return_.
  intros H. inversion H. reflexivity.
Qed.

Lemma tasks_info_keeps_register (argv : list string) (w w1 : world) (e : exit) :
  call (tasks_info argv) w = Some (e, w1) -> store0 w1 = store0 w.
Proof.
  unfold call, tasks_info, bind, malloc. cbn [emit].
  destruct (heap_malloc _); cbn; intros H; inversion H; reflexivity.
Qed.

(** X9: only [make] uses up invocations. Over any sequence of [make],
    [free], [heap_dump] and [tasks] commands that starts with the register
    at 0, 1 or 2, the register ends at that value plus the number of [make]
    commands, capped at 2. *)
Theorem session_counter (w w' : world) (n : nat) :
  0 <= store0 w <= 2 -> ran w n w' ->
  store0 w' = Z.min 2 (store0 w + Z.of_nat n).
Proof.
  intros Hr Hran. revert Hr.
  induction Hran as [w | w w1 w2 n argv e Hcall _ IH
                       | w w1 w2 n argv e Hcall _ IH
                       | w w1 w2 n argv e Hcall _ IH
                       | w w1 w2 n argv e Hcall _ IH]; intros Hr.
  - lia.
  - pose proof (call_make_counts argv w w1 e Hcall) as Hc.
    rewrite (int_of_uint32_small (store0 w)) in Hc by lia.
    unfold call in Hcall.
    destruct (Z_lt_le_dec (store0 w + 1) 3) as [Hlt | Hge].
    + destruct (make_below_limit argv w _ Hc Hlt) as (e' & rest & Hm & _).
      rewrite Hm in Hcall. inversion Hcall; subst w1.
      cbn [after store0] in IH. unfold uint32_of_int in IH.
      rewrite Z.mod_small in IH by lia. rewrite IH by lia. lia.
    + rewrite (make_at_limit argv w _ Hc Hge) in Hcall.
      inversion Hcall; subst w1. cbn [after store0] in IH.
      rewrite IH by lia. lia.
  - rewrite <- (free_mem_keeps_register argv w w1 e Hcall) in *. apply IH. exact Hr.
  - rewrite <- (dump_heap_keeps_register argv w w1 e Hcall) in *. apply IH. exact Hr.
  - rewrite <- (tasks_info_keeps_register argv w w1 e Hcall) in *. apply IH. exact Hr.
Qed.

(** ** The [free] command *)

Lemma decimal_digits (d : Decimal.uint) :
  forallb isdigit
    (list_ascii_of_string (DecimalString.NilEmpty.string_of_uint d)) = true.
Proof.
  induction d; cbn [DecimalString.NilEmpty.string_of_uint list_ascii_of_string forallb];
    [reflexivity | rewrite IHd; reflexivity ..].
Qed.

(** X10: [free] prints one line that reads back as the free heap size: the
    characters before the line feed are decimal digits, at least one, and
    parse to the value the platform gave; the handler returns 0. *)
Theorem free_mem_round_trip (argv : list string) (w : world) :
  0 <= esp_get_free_heap_size < 2 ^ 32 ->
  exists (digits : string) (d : Decimal.uint),
    call (free_mem argv) w =
    Some (Returned 0, after w (store0 w) [EvPrint (digits ++ LF)]) /\
    digits <> "" /\
    forallb isdigit (list_ascii_of_string digits) = true /\
    DecimalString.NilZero.uint_of_string digits = Some d /\
    Z.of_N (N.of_uint d) = esp_get_free_heap_size.
Proof.
  intros Hr.
  assert (Hprint : print_PRIu32 esp_get_free_heap_size =
                   DecimalString.NilZero.string_of_uint
                     (N.to_uint (Z.to_N esp_get_free_heap_size))).
  { unfold print_PRIu32. rewrite Z.mod_small by exact Hr. reflexivity. }
  exists (DecimalString.NilZero.string_of_uint
            (N.to_uint (Z.to_N esp_get_free_heap_size))).
  exists (N.to_uint (Z.to_N esp_get_free_heap_size)).
  assert (Hnonnil : N.to_uint (Z.to_N esp_get_free_heap_size) <> Decimal.Nil).
  { destruct (Z.to_N esp_get_free_heap_size) as [| p]; [discriminate |].
    apply DecimalPos.Unsigned.to_uint_nonnil. }
  split; [| split; [| split; [| split]]].
  - unfold call, free_mem, bind, printf, return_. rewrite Hprint.
    flatten_trace. reflexivity.
  - unfold DecimalString.NilZero.string_of_uint.
    destruct (N.to_uint (Z.to_N esp_get_free_heap_size)); discriminate.
  - unfold DecimalString.NilZero.string_of_uint.
    destruct (N.to_uint (Z.to_N esp_get_free_heap_size)) eqn:Hd;
      [reflexivity | rewrite <- Hd; apply decimal_digits ..].
  - apply DecimalString.NilZero.usu. exact Hnonnil.
  - rewrite DecimalN.Unsigned.of_to. apply Z2N.id. lia.
Qed.

(** ** Registration *)

Lemma check_booted (c : esp_console_cmd_t) (table table' : console) :
  ESP_ERROR_CHECK (esp_console_cmd_register c) table = Booted tt table' ->
  esp_console_cmd_register c table = (ESP_OK, table').
Proof.
  unfold ESP_ERROR_CHECK.
  destruct (esp_console_cmd_register c table) as [err t].
  destruct (Z.eqb_spec err ESP_OK) as [-> | _]; intros H; inversion H.
  reflexivity.
Qed.

Lemma and_then_booted (c1 c2 : startup unit) (table table' : console) :
  and_then c1 (fun _ => c2) table = Booted tt table' ->
  exists mid, c1 table = Booted tt mid /\ c2 mid = Booted tt table'.
Proof.
  unfold and_then. destruct (c1 table) as [[] mid | err mid]; intros H.
  - exists mid. split; [reflexivity | exact H].
  - discriminate.
Qed.

(** X11: when start-up completes over a table that resolves a name to the
    descriptor registered last under it, each of [free], [heap_dump],
    [restart] and [make] resolves to its own handler, [make] with no help
    text and the hint [all | flash | monitor]; [tasks] does so when the
    build has [WITH_TASKS_INFO]; every other name resolves as before. *)
Theorem register_system_dispatch
    (lookup : console -> string -> option esp_console_cmd_t)
    (table table' : console) :
  (forall (c : esp_console_cmd_t) (t t' : console),
      esp_console_cmd_register c t = (ESP_OK, t') ->
      lookup t' (command c) = Some c /\
      forall name : string, name <> command c -> lookup t' name = lookup t name) ->
  register_system table = Booted tt table' ->
  lookup table' "free" =
    Some (ConsoleCmd "free" (Some "Get the total size of heap memory available")
            None fn_free_mem) /\
  lookup table' "heap_dump" =
    Some (ConsoleCmd "heap_dump" (Some "Dump the current heap stats")
            None fn_dump_heap) /\
  lookup table' "restart" =
    Some (ConsoleCmd "restart" (Some "Restart the program") None fn_restart) /\
  lookup table' "make" =
    Some (ConsoleCmd "make" None (Some "all | flash | monitor") fn_make) /\
  lookup table' "tasks" =
    (if WITH_TASKS_INFO
     then Some (ConsoleCmd "tasks" (Some "Get information about running tasks")
                  None fn_tasks_info)
     else lookup table "tasks") /\
  forall name : string,
    ~ In name ["free"; "heap_dump"; "restart"; "make"; "tasks"] ->
    lookup table' name = lookup table name.
Proof.
  intros Hlaw Hboot. unfold register_system in Hboot.
  apply and_then_booted in Hboot. destruct Hboot as (t1 & H1 & Hboot).
  apply and_then_booted in Hboot. destruct Hboot as (t2 & H2 & Hboot).
  apply and_then_booted in Hboot. destruct Hboot as (t3 & H3 & Hboot).
  apply and_then_booted in Hboot. destruct Hboot as (t4 & H4 & H5).
  apply check_booted, Hlaw in H1, H2, H3, H4. cbn [command] in H1, H2, H3, H4.
  destruct H1 as [F1 K1], H2 as [F2 K2], H3 as [F3 K3], H4 as [F4 K4].
  assert (Hlast :
            lookup table' "tasks" =
              (if WITH_TASKS_INFO
               then Some (ConsoleCmd "tasks"
                            (Some "Get information about running tasks")
                            None fn_tasks_info)
               else lookup t4 "tasks") /\
            forall name : string, name <> "tasks" ->
              lookup table' name = lookup t4 name).
  { destruct WITH_TASKS_INFO.
    - apply check_booted, Hlaw in H5. exact H5.
    - inversion H5; subst. split; reflexivity. }
  destruct Hlast as [F5 K5].
  split; [| split; [| split; [| split; [| split]]]].
  - rewrite K5, K4, K3, K2 by discriminate. exact F1.
  - rewrite K5, K4, K3 by discriminate. exact F2.
  - rewrite K5, K4 by discriminate. exact F3.
  - rewrite K5 by discriminate. exact F4.
  - rewrite F5. destruct WITH_TASKS_INFO; [reflexivity |].
    rewrite K4, K3, K2, K1 by discriminate. reflexivity.
  - intros name Hname. cbn [In] in Hname.
    rewrite K5, K4, K3, K2, K1; [reflexivity | | | | |];
      intros ->; apply Hname; auto 6.
Qed.

End Handlers.

(** ** The handlers on concrete inputs

    The macros take their default values; the command line is the one the
    console hands over, [argv[0]] being the command name. *)

(** C1: [make bogus all] prints the error line for [bogus] and stops; the
    make block that [all] asks for is not printed. *)
Lemma make_bogus_all_prints_no_make_block :
  In "all" ["make"; "bogus"; "all"] /\
  known_token "bogus" = false /\
  call (make tick_period_100hz color_yellow color_reset ["make"; "bogus"; "all"]) (World 0 []) =
  Some (Returned 0, World 1 [EvRegWrite 1; EvPrint (no_rule "bogus")]) /\
  ~ In (EvPrint make_output) [EvRegWrite 1; EvPrint (no_rule "bogus")].
Proof.
  split; [right; right; left; reflexivity |].
  split; [reflexivity |].
  split; [reflexivity |].
  intros [H | [H | []]]; discriminate.
Qed.

Lemma make_unknown_target_stops_witness :
  call (make tick_period_100hz color_yellow color_reset ["make"; "all"; "-j"; "4"; "bogus"; "flash"]) (World 0 []) =
  Some (Returned 0,
        World 1 [EvRegWrite 1;
                 EvPrint ("make: *** No rule to make target `bogus'.  Stop." ++ LF)]).
Proof.
  apply (make_unknown_target_stops tick_period_100hz color_yellow color_reset
           "make" "bogus" ["all"; "-j"; "4"] ["flash"] (World 0 []) 1).
  - reflexivity.
  - lia.
  - reflexivity.
  - discriminate.
  - discriminate.
  - discriminate.
  - discriminate.
  - reflexivity.
Defined.

(** C2: on the third invocation the incremented count, 3, is not written
    back: the register still holds 2 and the handler made no write. *)
Lemma make_refusal_writes_nothing :
  next_count (World 2 []) = Next 3 (World 2 []) /\
  call (make tick_period_100hz color_yellow color_reset ["make"]) (World 2 []) =
  Some (Returned 0, World 2 [EvPrint refusal]) /\
  store0 (World 2 [EvPrint refusal]) <> uint32_of_int 3 /\
  existsb is_reg_write [EvPrint refusal] = false.
Proof.
  split; [reflexivity |].
  split; [reflexivity |].
  split; [discriminate | reflexivity].
Qed.

Lemma make_writes_back_below_3_witness :
  next_count (World 1 []) = Next 2 (World 1 []) /\
  exists (e : exit) (w' : world) (events : list event),
    call (make tick_period_100hz color_yellow color_reset ["make"; "all"]) (World 1 []) = Some (e, w') /\
    trace w' = ([] ++ events)%list /\
    (2 < 3 ->
     store0 w' = uint32_of_int 2 /\
     exists rest,
       events = EvRegWrite (uint32_of_int 2) :: rest /\
       existsb is_reg_write rest = false) /\
    (3 <= 2 ->
     store0 w' = 1 /\ events = [EvPrint refusal]).
Proof.
  split; [reflexivity |].
  apply (make_writes_back_below_3 tick_period_100hz color_yellow color_reset
           ["make"; "all"] (World 1 []) 2).
  reflexivity.
Defined.

Lemma make_refuses_at_3_witness :
  next_count (World 2 []) = Next 3 (World 2 []) /\
  call (make tick_period_100hz color_yellow color_reset ["make"; "flash"; "monitor"]) (World 2 []) =
  Some (Returned 0,
        World 2 [EvPrint ("This is not the console you are looking for." ++ LF)]).
Proof.
  split; [reflexivity |].
  apply (make_refuses_at_3 tick_period_100hz color_yellow color_reset
           ["make"; "flash"; "monitor"] (World 2 []) 3).
  - reflexivity.
  - lia.
Defined.

Lemma make_flash_transcript_witness :
  exists b1 b2 b3 b4 b5 : string,
    flash_output = [b1; b2; b3; b4; b5] /\
    call (make tick_period_100hz color_yellow color_reset ["make"; "flash"]) (World 0 []) =
    Some (Returned 0,
          World 1
            [EvRegWrite 1;
             EvPrint make_output;
             EvPrint b1; EvTaskDelay 20;
             EvPrint b2; EvTaskDelay 20;
             EvPrint b3; EvTaskDelay 20;
             EvPrint b4; EvTaskDelay 20;
             EvPrint b5; EvTaskDelay 20]) /\
    ticks_to_ms tick_period_100hz 20 = 200.
Proof.
  destruct (make_flash_transcript tick_period_100hz color_yellow color_reset
              "make" (World 0 []) 1 eq_refl ltac:(lia))
    as (b1 & b2 & b3 & b4 & b5 & Hblocks & Hcall & Hms).
  exists b1, b2, b3, b4, b5.
  split; [exact Hblocks |]. split; [exact Hcall |].
  apply Hms.
  - reflexivity.
  - exists 20. reflexivity.
Defined.

Lemma make_monitor_restarts_witness :
  call (make tick_period_100hz color_yellow color_reset ["make"; "monitor"]) (World 1 []) =
  Some (Restarted,
        World 2
          [EvRegWrite 2;
           EvPrint (monitor_output color_yellow color_reset);
           EvRestart]).
Proof.
  apply (make_monitor_restarts tick_period_100hz color_yellow color_reset
           "make" (World 1 []) 2).
  - reflexivity.
  - lia.
Defined.

Lemma make_bogus_status_0_witness :
  call (make tick_period_100hz color_yellow color_reset ["make"; "bogus"]) (World 0 []) =
  Some (Returned 0,
        World 1
          [EvRegWrite 1;
           EvPrint ("make: *** No rule to make target `bogus'.  Stop." ++ LF)]).
Proof.
  apply (make_bogus_status_0 tick_period_100hz color_yellow color_reset
           "make" (World 0 []) 1).
  - reflexivity.
  - lia.
Defined.

Lemma make_first_and_second_witness :
  call (make tick_period_100hz color_yellow color_reset ["make"]) (World 0 []) =
  Some (Returned 0, World 1 [EvRegWrite 1; EvPrint make_output]) /\
  call (make tick_period_100hz color_yellow color_reset ["make"; "all"])
    (World 1 [EvRegWrite 1; EvPrint make_output]) =
  Some (Returned 0,
        World 2 [EvRegWrite 1; EvPrint make_output;
                 EvRegWrite 2; EvPrint make_output]).
Proof.
  apply (make_first_and_second tick_period_100hz color_yellow color_reset
           "make" "make" ["make"] ["make"; "all"] []).
  - left. reflexivity.
  - right. left. reflexivity.
Defined.

Lemma make_counter_capped_witness :
  (exists events : list event,
      [EvRegWrite 1; EvPrint make_output] = ([] ++ events)%list /\
      forall v : Z, In (EvRegWrite v) events -> int_of_uint32 v < 3) /\
  0 <= 1 <= 2 /\
  call (make tick_period_100hz color_yellow color_reset ["make"; "all"])
    (World 2 [EvPrint refusal]) =
  Some (Returned 0, World 2 [EvPrint refusal; EvPrint refusal]).
Proof.
  destruct (make_counter_capped tick_period_100hz color_yellow color_reset)
    as (Hwrites & Hsmall & Hrefuse).
  assert (Hstep1 : made tick_period_100hz color_yellow color_reset
                     (World 0 []) (World 1 [EvRegWrite 1; EvPrint make_output])).
  { eapply made_more with (argv := ["make"]).
    - reflexivity.
    - apply made_none. }
  assert (Hstep3 : made tick_period_100hz color_yellow color_reset
                     (World 2 []) (World 2 [EvPrint refusal])).
  { eapply made_more with (argv := ["make"]).
    - reflexivity.
    - apply made_none. }
  split; [| split].
  - apply (Hwrites ["make"] (World 0 [])
             (World 1 [EvRegWrite 1; EvPrint make_output]) (Returned 0)).
    reflexivity.
  - apply (Hsmall (World 0 []) (World 1 [EvRegWrite 1; EvPrint make_output])).
    + cbn. lia.
    + exact Hstep1.
  - apply (proj2 (Hrefuse (World 2 []) 3 eq_refl ltac:(lia) _ Hstep3)).
Defined.

Lemma make_unknown_target_counts_witness :
  exists w' : world,
    call (make tick_period_100hz color_yellow color_reset
            ["make"; "-j"; "8"; "clean"])
      (World 1 []) =
    Some (Returned 0, w') /\
    trace w' = ([] ++ [EvRegWrite (uint32_of_int 2); EvPrint (no_rule "clean")])%list /\
    store0 w' = uint32_of_int 2 /\
    next_count w' = Next (2 + 1) w'.
Proof.
  apply (make_unknown_target_counts tick_period_100hz color_yellow color_reset
           "make" "clean" ["-j"; "8"] [] (World 1 []) 2).
  - reflexivity.
  - lia.
  - reflexivity.
  - reflexivity.
Defined.

Lemma tasks_info_allocation_witness :
  call (tasks_info 7 (fun _ => None) "main" ["tasks"]) (World 0 []) =
  Some (Returned 1,
        World 0
          [EvMalloc 280;
           EvLogE "tasks_info" "failed to allocate buffer for vTaskList output"]) /\
  call (tasks_info 7 (fun _ => Some 4096) "main" ["tasks"]) (World 0 []) =
  Some (Returned 0,
        World 0
          [EvMalloc 280; EvPrint tasks_header; EvPrint "main"; EvFree 4096]).
Proof.
  split.
  - apply (proj1 (tasks_info_allocation 7 (fun _ => None) "main"
                    ["tasks"] (World 0 []))).
    reflexivity.
  - apply (proj2 (tasks_info_allocation 7 (fun _ => Some 4096) "main"
                    ["tasks"] (World 0 []))).
    reflexivity.
Defined.

Lemma make_accepted_targets_witness :
  call (make tick_period_100hz color_yellow color_reset
          ["make"; "monitor"; "-j"; "4"; "all"])
    (World 0 []) =
  Some (Restarted,
        World 1
          [EvRegWrite 1;
           EvPrint make_output;
           EvPrint (monitor_output color_yellow color_reset);
           EvRestart]).
Proof.
  apply (proj1 (make_accepted_targets tick_period_100hz color_yellow color_reset
                  "make" ["monitor"; "-j"; "4"; "all"] (World 0 []) 1
                  eq_refl ltac:(lia) eq_refl)).
Defined.

Lemma make_order_irrelevant_witness :
  call (make tick_period_100hz color_yellow color_reset
          ["make"; "flash"; "all"; "monitor"])
    (World 1 []) =
  call (make tick_period_100hz color_yellow color_reset
          ["make"; "monitor"; "flash"; "all"])
    (World 1 []).
Proof.
  apply (make_order_irrelevant tick_period_100hz color_yellow color_reset
           "make" "make" ["flash"; "all"; "monitor"] ["monitor"; "flash"; "all"]).
  - reflexivity.
  - apply Permutation_sym.
    apply (Permutation_cons_append ["flash"; "all"] "monitor").
Defined.

Lemma make_options_only_witness :
  call (make tick_period_100hz color_yellow color_reset ["make"; "-j4"])
    (World 0 []) =
  Some (Returned 0, World 1 [EvRegWrite 1]).
Proof.
  apply (make_options_only tick_period_100hz color_yellow color_reset
           "make" ["-j4"] (World 0 []) 1).
  - reflexivity.
  - lia.
  - discriminate.
  - reflexivity.
Defined.

Lemma make_options_ignored_witness :
  call (make tick_period_100hz color_yellow color_reset
          ["make"; "-j"; "4"; "all"])
    (World 0 []) =
  call (make tick_period_100hz color_yellow color_reset ["make"; "all"])
    (World 0 []).
Proof.
  apply (make_options_ignored tick_period_100hz color_yellow color_reset
           "make" ["-j"; "4"; "all"] (World 0 [])).
  - reflexivity.
  - discriminate.
Defined.

Lemma make_status_witness :
  Restarted = Returned 0 \/
  (Restarted = Restarted /\ In "monitor" ["monitor"; "all"]).
Proof.
  apply (make_status tick_period_100hz color_yellow color_reset
           ["make"; "monitor"; "all"] (World 0 [])
           (World 1 [EvRegWrite 1;
                     EvPrint make_output;
                     EvPrint (monitor_output color_yellow color_reset);
                     EvRestart])
           Restarted).
  reflexivity.
Defined.

Lemma make_negative_count_witness :
  exists (e : exit) (w' : world) (rest : list event),
    call (make tick_period_100hz color_yellow color_reset ["make"])
      (World 4294967295 []) =
    Some (e, w') /\
    store0 w' = 0 /\
    trace w' = ([] ++ EvRegWrite 0 :: rest)%list /\
    existsb is_reg_write rest = false.
Proof.
  apply (make_negative_count tick_period_100hz color_yellow color_reset
           ["make"] (World 4294967295 [])).
  cbn. lia.
Defined.


Lemma session_counter_witness :
  ran tick_period_100hz color_yellow color_reset 7 (fun _ => Some 4096) "main"
    262144 (fun _ => "heap")
    (World 0 []) 3
    (World 2 [EvRegWrite 1; EvPrint make_output;
              EvPrint ("262144" ++ LF);
              EvRegWrite 2; EvPrint make_output;
              EvPrint refusal]) /\
  2 = Z.min 2 (0 + Z.of_nat 3).
Proof.
  assert (Hran :
            ran tick_period_100hz color_yellow color_reset 7
              (fun _ => Some 4096) "main" 262144 (fun _ => "heap")
              (World 0 []) 3
              (World 2 [EvRegWrite 1; EvPrint make_output;
                        EvPrint ("262144" ++ LF);
                        EvRegWrite 2; EvPrint make_output;
                        EvPrint refusal])).
  { eapply ran_make with (argv := ["make"]); [reflexivity |].
    eapply ran_free with (argv := ["free"]); [reflexivity |].
    eapply ran_make with (argv := ["make"; "all"]); [reflexivity |].
    eapply ran_make with (argv := ["make"]); [reflexivity |].
    apply ran_none. }
  split; [exact Hran |].
  refine (session_counter _ _ _ _ _ _ _ _ _ _ _ _ Hran).
  cbn. lia.
Defined.

Lemma free_mem_round_trip_witness :
  exists (digits : string) (d : Decimal.uint),
    call (free_mem 262144 ["free"]) (World 0 []) =
    Some (Returned 0, World 0 [EvPrint (digits ++ LF)]) /\
    digits <> "" /\
    forallb isdigit (list_ascii_of_string digits) = true /\
    DecimalString.NilZero.uint_of_string digits = Some d /\
    Z.of_N (N.of_uint d) = 262144.
Proof.
  apply (free_mem_round_trip 262144 ["free"] (World 0 [])).
  lia.
Defined.

Lemma register_system_dispatch_witness :
  list_lookup
    (match register_system _ list_register true [] with
     | Booted _ _ _ table => table
     | Aborted _ _ _ table => table
     end) "make" =
  Some (ConsoleCmd "make" None (Some "all | flash | monitor") fn_make).
Proof.
  refine (proj1 (proj2 (proj2 (proj2
            (register_system_dispatch _ list_register true list_lookup [] _ _ eq_refl))))).
  intros c t t' Hreg. inversion Hreg; subst t'. unfold list_lookup. cbn [find].
  split.
  - rewrite String.eqb_refl. reflexivity.
  - intros name Hname.
    destruct (String.eqb_spec (command c) name) as [Heq | _];
      [symmetry in Heq; contradiction | reflexivity].
Defined.
